(** * Diffusion models of the nipreps book: fit / predict

    A shallow embedding of the model classes of the notebook
    [docs/notebook/03-models.ipynb] ([TrivialB0Model], [AverageDWModel]),
    together with the two collaborators the notebook only calls
    ([DWI.logo_split] and [ModelFactory.init] of the [eddymotion] package).

    Python objects are records of slots, a method is a function from the
    receiver's state to a result and the receiver's new state, and a raised
    exception is the left injection of the result. *)

From Stdlib Require Import QArith Ascii String.
From stdpp Require Import base option list gmap strings.

Open Scope string_scope.
Open Scope list_scope.

(** ** Python values and exceptions *)

(** A numpy array: its shape and its elements in C (row-major) order. *)
Record ndarray := NdArray { shape : list nat; flat : list Q }.

Inductive pyval :=
| PyNone
| PyBool (b : bool)
| PyInt (z : Z)
| PyStr (s : string)
| PyArray (a : ndarray).

(** Keyword arguments collected by a [**kwargs] parameter. *)
Abbreviation kwargs_t := (gmap string pyval).

Inductive exn :=
| ValueError (msg : string)
| AttributeError (attr : string)
| IndexError (msg : string)
| UnknownModelError (name : string).

(** The outcome of a call: an exception raised, or a value returned. *)
Definition result (A : Type) : Type := exn + A.

Definition ok {A} (a : A) : result A := inr a.
Definition raise {A} (e : exn) : result A := inl e.

(** A method of a class whose instances have state [S]: it runs on the
    receiver and leaves a (possibly mutated) receiver behind. *)
Definition method (S A : Type) : Type := S -> result A * S.

Definition mreturn {S A} (a : A) : method S A := fun self => (ok a, self).
Definition mraise {S A} (e : exn) : method S A := fun self => (raise e, self).

Definition mseq {S A B} (c : method S A) (k : A -> method S B) : method S B :=
  fun self =>
    match c self with
    | (inr a, self') => k a self'
    | (inl e, self') => (inl e, self')
    end.

Declare Scope method_scope.
Delimit Scope method_scope with method.
Notation "'call' x <- c 'in' k" := (mseq c (fun x => k))
  (at level 10, x name, c at level 100, k at level 200) : method_scope.
Notation "c ;; k" := (mseq c (fun _ => k))
  (at level 100, k at level 200, right associativity) : method_scope.

(** Reading a slot declared in [__slots__]: a slot that was never assigned
    raises [AttributeError]. *)
Definition getattr {S} (name : string) (slot : S -> option pyval) : method S pyval :=
  fun self =>
    match slot self with
    | Some v => (ok v, self)
    | None => (raise (AttributeError name), self)
    end.

(** One recorded call of [fit]: positional and keyword arguments. *)
Definition fit_args : Type := list pyval * kwargs_t.

(** ** [TrivialB0Model] *)

Module TrivialB0Model.

(** [__slots__ = ("_S0",)]. *)
Record t := Obj { _S0 : option pyval }.

(** The instance as [object.__new__] leaves it: no slot assigned. *)
Definition alloc : t := Obj None.

(** [def __init__(self, gtab, S0=None, **kwargs)]. *)
Definition __init__ (gtab S0 : pyval) (kwargs : kwargs_t) : method t pyval :=
  match S0 with
  | PyNone => mraise (ValueError "S0 must be provided")
  | _ => fun _ => (ok PyNone, Obj (Some S0))
  end.

(** The class call [TrivialB0Model(gtab, S0=..., **kwargs)]; [S0 = None]
    is a call that leaves the keyword out, so that the parameter takes its
    default.  The instance exists only if [__init__] returned. *)
Definition new (gtab : pyval) (S0 : option pyval) (kwargs : kwargs_t) : result t :=
  match __init__ gtab (default PyNone S0) kwargs alloc with
  | (inr _, self) => ok self
  | (inl e, _) => raise e
  end.

(** [def fit(self, *args, **kwargs)]: "Do nothing." *)
Definition fit (args : list pyval) (kwargs : kwargs_t) : method t pyval :=
  mreturn PyNone.

(** [def predict(self, gradient, **kwargs)]: [return self._S0]. *)
Definition predict (gradient : pyval) (kwargs : kwargs_t) : method t pyval :=
  getattr "_S0" _S0.

(** Any number of [fit] calls, one after the other. *)
Fixpoint fit_many (calls : list fit_args) : method t pyval :=
  match calls with
  | [] => mreturn PyNone
  | (args, kwargs) :: rest => (fit args kwargs ;; fit_many rest)%method
  end.

(** A whole life of an instance: construct, fit any number of times,
    predict once. *)
Definition session (gtab : pyval) (S0 : option pyval) (kwargs : kwargs_t)
    (calls : list fit_args) (gradient : pyval) (pkwargs : kwargs_t) : result pyval :=
  match new gtab S0 kwargs with
  | inr self => fst ((fit_many calls ;; predict gradient pkwargs)%method self)
  | inl e => raise e
  end.

End TrivialB0Model.

(** ** [AverageDWModel] *)

Module AverageDWModel.

(** [__slots__ = ("_data",)]. *)
Record t := Obj { _data : option pyval }.

Definition alloc : t := Obj None.

(** [def __init__(self, gtab, **kwargs)]: [return], nothing at
    initialization time. *)
Definition __init__ (gtab : pyval) (kwargs : kwargs_t) : method t pyval :=
  mreturn PyNone.

Definition new (gtab : pyval) (kwargs : kwargs_t) : result t :=
  match __init__ gtab kwargs alloc with
  | (inr _, self) => ok self
  | (inl e, _) => raise e
  end.

(** [def fit(self, data, **kwargs)]: the body is a docstring and a
    comment ([# self._data =  # Use numpy to calculate the average.]);
    no statement assigns [_data]. *)
Definition fit (data : pyval) (kwargs : kwargs_t) : method t pyval :=
  mreturn PyNone.

(** [def predict(self, gradient, **kwargs)]: [return self._data]. *)
Definition predict (gradient : pyval) (kwargs : kwargs_t) : method t pyval :=
  getattr "_data" _data.

Fixpoint fit_many (calls : list (pyval * kwargs_t)) : method t pyval :=
  match calls with
  | [] => mreturn PyNone
  | (data, kwargs) :: rest => (fit data kwargs ;; fit_many rest)%method
  end.

Definition session (gtab : pyval) (kwargs : kwargs_t)
    (calls : list (pyval * kwargs_t)) (gradient : pyval) (pkwargs : kwargs_t)
    : result pyval :=
  match new gtab kwargs with
  | inr self => fst ((fit_many calls ;; predict gradient pkwargs)%method self)
  | inl e => raise e
  end.

End AverageDWModel.

(** ** The mean across the direction axis

    What the docstrings of [AverageDWModel] ("Calculate the average",
    "Return the average map") ask for: the voxel-wise arithmetic mean of a
    4D array across its last axis.  In C order the values of one voxel along
    the last axis are contiguous. *)

Definition Qsum (l : list Q) : Q := foldr Qplus 0%Q l.

Definition Qmean (l : list Q) : Q := Qred (Qsum l / inject_Z (Z.of_nat (length l))).

(** [chunks k n l]: the first [k] runs of [n] consecutive elements of [l]. *)
Fixpoint chunks (k n : nat) (l : list Q) : list (list Q) :=
  match k with
  | O => []
  | S k' => take n l :: chunks k' n (drop n l)
  end.

Definition mean_last_axis (a : ndarray) : ndarray :=
  match reverse (shape a) with
  | [] => a
  | n :: rev_spatial =>
      let spatial := reverse rev_spatial in
      NdArray spatial (Qmean <$> chunks (foldr Nat.mul 1 spatial) n (flat a))
  end.

(** ** The DWI dataset and its leave-one-gradient-out split *)

(** One entry of the gradient table: a direction vector and a b-value. *)
Record gradient := Gradient { bvec : Q * Q * Q; bval : Q }.

Module DWI.

(** Modelled from the spec: the [DWI] class of the [eddymotion] package,
    which the notebook imports ([from eddymotion.dmri import DWI]) and whose
    source is not part of the repository.  The 4D signal array is kept as
    the sequence of its 3D volumes along the last (direction) axis; next to
    it the affine, the gradient table and the cache of the derived b=0
    reference. *)
Record t := Dataset {
  dataobj : list ndarray;
  affine : list Q;
  gradients : list gradient;
  _bzero : option ndarray
}.

(** Modelled from the spec: the invariant of the [DWI] data model, "number
    of directions in gradient table equals size of the 4th data axis". *)
Definition wf (d : t) : Prop := length (gradients d) = length (dataobj d).

(** Modelled from the spec: the gradient entry that goes with the b=0
    reference (no direction, b-value zero); the [DWI] class is not in the
    repository. *)
Definition b0_gradient : gradient := Gradient (0, 0, 0)%Q 0%Q.

(** Voxel-wise sum and mean of a sequence of volumes of one shape. *)
Definition vadd (a b : list Q) : list Q := zip_with Qplus a b.

Definition voxel_mean (vols : list ndarray) : ndarray :=
  match vols with
  | [] => NdArray [] []
  | v :: rest =>
      let total := foldl vadd (flat v) (flat <$> rest) in
      NdArray (shape v)
        ((fun s => Qred (s / inject_Z (Z.of_nat (length vols)))) <$> total)
  end.

Section Threshold.

(** The "small epsilon threshold" under which a b-value labels a b=0
    volume; the spec leaves its value open. *)
Variable epsilon : Q.

Definition is_b0 (g : gradient) : bool := negb (Qle_bool epsilon (bval g)).

(** Modelled from the spec: the b=0 volumes of the [DWI] dataset, "all
    b=0-labeled volumes (b-value below a small epsilon threshold)". *)
Fixpoint b0_volumes (gs : list gradient) (vols : list ndarray) : list ndarray :=
  match gs, vols with
  | g :: gs', v :: vols' =>
      if is_b0 g then v :: b0_volumes gs' vols' else b0_volumes gs' vols'
  | _, _ => []
  end.

(** Modelled from the spec: the [bzero] accessor of the [DWI] class,
    the "derived b=0 reference (average of zero-b volumes)", "computed
    lazily": the first read stores the average in the cache, later reads
    return the cache. *)
Definition bzero : method t ndarray :=
  fun self =>
    match _bzero self with
    | Some b0 => (ok b0, self)
    | None =>
        let b0 := voxel_mean (b0_volumes (gradients self) (dataobj self)) in
        (ok b0, Dataset (dataobj self) (affine self) (gradients self) (Some b0))
    end.

(** The two parts of a split: the training subset (volumes and their
    gradient entries) and the held-out volume with its gradient entry. *)
Definition split : Type := (list ndarray * list gradient) * (ndarray * gradient).

(** Modelled from the spec: [DWI.logo_split(held_out_index,
    with_b0=false)] of the [eddymotion] package, of which the repository
    has only the calls [dmri_dataset.logo_split(10)] and
    [dmri_dataset.logo_split(88, with_b0=True)].  An index outside
    [0, N) is an [IndexError]; the training subset leaves the selected
    direction out, and with [with_b0] the b=0 reference is put in front
    of it; the held-out part is the selected volume and its gradient
    entry. *)
Definition logo_split (index : Z) (with_b0 : bool) : method t split :=
  fun self =>
    if bool_decide (0 ≤ index < Z.of_nat (length (dataobj self)))%Z then
      let i := Z.to_nat index in
      match dataobj self !! i, gradients self !! i with
      | Some vol, Some g =>
          let train_data := delete i (dataobj self) in
          let train_gradients := delete i (gradients self) in
          if with_b0 then
            (call b0 <- bzero in
             mreturn ((b0 :: train_data, b0_gradient :: train_gradients), (vol, g)))%method
              self
          else
            (ok ((train_data, train_gradients), (vol, g)), self)
      | _, _ => (raise (IndexError "index out of range"), self)
      end
    else (raise (IndexError "index out of range"), self).

End Threshold.

End DWI.

(** ** The model factory *)

(** ASCII lower-casing of a model name. *)
Definition lower_ascii (c : ascii) : ascii :=
  let n := nat_of_ascii c in
  if (65 <=? n)%nat && (n <=? 90)%nat then ascii_of_nat (n + 32) else c.

Fixpoint lower (s : string) : string :=
  match s with
  | EmptyString => EmptyString
  | String c rest => String (lower_ascii c) (lower rest)
  end.

Module ModelFactory.

(** Modelled from the spec: the variants of the model abstraction behind
    the [ModelFactory] of the [eddymotion] package (not in the
    repository).  The constant and the averaging model are the classes of
    the notebook; the tensor and the kurtosis model wrap an external solver
    and are kept as their construction arguments. *)
Inductive model :=
| Constant (m : TrivialB0Model.t)
| Average (m : AverageDWModel.t)
| Tensor (gtab : pyval) (params : kwargs_t)
| Kurtosis (gtab : pyval) (params : kwargs_t).

Definition constructor : Type := pyval -> kwargs_t -> result model.

(** Modelled from the spec: the name→constructor mapping of
    [ModelFactory], "the single extension point", with the names the spec
    gives ("DTI", "DKI", "trivial"), stored in lower case. *)
Definition registry : gmap string constructor :=
  <["dti" := fun gtab params => ok (Tensor gtab params)]>
  (<["dki" := fun gtab params => ok (Kurtosis gtab params)]>
  (<["trivial" := fun gtab params =>
       match TrivialB0Model.new gtab (params !! "S0") (delete "S0" params) with
       | inr m => ok (Constant m)
       | inl e => raise e
       end]> ∅)).

(** Modelled from the spec: [ModelFactory.init(gradient_table,
    model_name, **params)] of the [eddymotion] package, of which the
    repository has only the call [ModelFactory.init(gtab=..., model="DTI",
    S0=...)]: the name is looked up without regard to case, the
    constructor found is applied to the gradient table and the forwarded
    parameters, and a name that is not registered is an
    [UnknownModelError]. *)
Definition init (reg : gmap string constructor)
    (gtab : pyval) (model_name : string) (params : kwargs_t) : result model :=
  match reg !! lower model_name with
  | Some make => make gtab params
  | None => raise (UnknownModelError model_name)
  end.

End ModelFactory.

(** ** Calls on one instance, one after the other

    A notebook runs its cells one at a time: a call that raises ends its
    cell, the instance stays in the kernel, and a later cell calls it again.
    [run_calls] runs a sequence of [fit] and [predict] calls on one instance
    and collects the outcome of each call. *)

Inductive model_call (F : Type) :=
| Fit (a : F)
| Predict (gradient : pyval) (kwargs : kwargs_t).

Arguments Fit {F} a.
Arguments Predict {F} gradient kwargs.

Fixpoint run_calls {S F} (do_fit : F -> method S pyval)
    (do_predict : pyval -> kwargs_t -> method S pyval)
    (calls : list (model_call F)) (self : S) : list (result pyval) * S :=
  match calls with
  | [] => ([], self)
  | c :: rest =>
      let '(r, self1) :=
        match c with
        | Fit a => do_fit a self
        | Predict g kw => do_predict g kw self
        end in
      let '(rs, self2) := run_calls do_fit do_predict rest self1 in
      (r :: rs, self2)
  end.

(** [model.fit] with any arguments and [model.predict(gradient, **kwargs)]
    on a [TrivialB0Model]. *)
Definition trivial_calls
  : list (model_call fit_args) -> TrivialB0Model.t -> list (result pyval) * TrivialB0Model.t :=
  run_calls (fun a => TrivialB0Model.fit (fst a) (snd a)) TrivialB0Model.predict.

(** [model.fit(data, **kwargs)] and [model.predict(gradient, **kwargs)] on
    an [AverageDWModel]. *)
Definition average_calls
  : list (model_call (pyval * kwargs_t)) -> AverageDWModel.t
    -> list (result pyval) * AverageDWModel.t :=
  run_calls (fun a => AverageDWModel.fit (fst a) (snd a)) AverageDWModel.predict.

(** ** The cells that use the constant model

    [model = TrivialB0Model(dmri_dataset.gradients, S0=dmri_dataset.bzero)],
    [data_train, data_test = dmri_dataset.logo_split(10)],
    [model.fit(data_train[0])] and
    [predicted = model.predict(data_test[1])], run in this order. *)

(** The members of [dmri_dataset] the cells use.  The object is an
    [eddymotion] [DWI], whose code is not in the repository, so the members
    are parameters: any state [D], any behaviour. *)
Record dataset_api (D : Type) := DatasetAPI {
  api_gradients : method D pyval;
  api_bzero : method D pyval;
  api_logo_split : Z -> bool -> method D ((pyval * pyval) * (pyval * pyval))
}.

Arguments api_gradients {D} _.
Arguments api_bzero {D} _.
Arguments api_logo_split {D} _ _ _.

(** The cells, with the held-out index (10 in the notebook) as a parameter;
    the value is [predicted].  The arguments of the class call are evaluated
    from left to right, before [__init__] runs. *)
Definition trivial_cells {D} (api : dataset_api D) (index : Z) : method D pyval :=
  (call gtab <- api_gradients api in
   call S0 <- api_bzero api in
   match TrivialB0Model.new gtab (Some S0) ∅ with
   | inl e => mraise e
   | inr model =>
       call parts <- api_logo_split api index false in
       let data_train := fst parts in
       let data_test := snd parts in
       match TrivialB0Model.fit [fst data_train] ∅ model with
       | (inl e, _) => mraise e
       | (inr _, model1) =>
           match TrivialB0Model.predict (snd data_test) ∅ model1 with
           | (inl e, _) => mraise e
           | (inr predicted, _) => mreturn predicted
           end
       end
   end)%method.

(** ** The cell that fetches the full dataset

    The cell tagged [remove-cell]: it unlinks the file behind the loaded
    dataset, makes a temporary file, downloads the dataset into it, loads
    it, unlinks the temporary file and splits the new dataset. *)

(** The file system: the content of every file that exists. *)
Abbreviation files := (gmap string (list Byte.byte)).

(** What can end the cell: a [pathlib] call on a file that does not exist,
    or an exception [e] of a collaborator ([requests], [eddymotion]). *)
Inductive fetch_error (E : Type) :=
| FileNotFoundError (path : string)
| Collaborator (e : E).

Arguments FileNotFoundError {E} path.
Arguments Collaborator {E} e.

(** The collaborators of the cell, none of them in the repository:
    [dmri_dataset._filepath], [mkstemp(suffix=".h5")] (the name it returns),
    [requests.get(url, allow_redirects=True).content],
    [DWI.from_filename] on a path, and [logo_split] of the loaded dataset.
    Each of them may raise, and each of them runs on the file system and
    leaves one behind: what it does there is not fixed here. *)
Record fetch_env (D E P : Type) := FetchEnv {
  env_filepath : D -> string;
  env_mkstemp : files -> (E + string) * files;
  env_get : files -> (E + list Byte.byte) * files;
  env_from_filename : string -> files -> (E + D) * files;
  env_logo_split : Z -> bool -> D -> files -> (E + P) * (D * files)
}.

Arguments env_filepath {D E P} _ _.
Arguments env_mkstemp {D E P} _ _.
Arguments env_get {D E P} _ _.
Arguments env_from_filename {D E P} _ _ _.
Arguments env_logo_split {D E P} _ _ _ _ _.

(** [if path.exists(): path.unlink()]. *)
Definition unlink_if_exists (path : string) (fs : files) : files :=
  match fs !! path with
  | Some _ => delete path fs
  | None => fs
  end.

(** The cell on the dataset bound to [dmri_dataset] and a file system: the
    outcome (the new [dmri_dataset] and the split, or what was raised) and
    the file system it leaves.  [stat] and [unlink] raise
    [FileNotFoundError] on a path that has no file; [write_bytes] makes the
    file or replaces its content. *)
Definition fetch_cell {D E P} (env : fetch_env D E P) (dmri_dataset : D) (fs : files)
    : (fetch_error E + D * P) * files :=
  let fs1 := unlink_if_exists (env_filepath env dmri_dataset) fs in
  match env_mkstemp env fs1 with
  | (inl e, fs2) => (inl (Collaborator e), fs2)
  | (inr datapath, fs2) =>
      match fs2 !! datapath with
      | None => (inl (FileNotFoundError datapath), fs2)
      | Some content0 =>
          let written :=
            if decide (length content0 = 0%nat) then
              match env_get env fs2 with
              | (inl e, fs3) => (inl e, fs3)
              | (inr content, fs3) => (inr tt, <[datapath := content]> fs3)
              end
            else (inr tt, fs2) in
          match written with
          | (inl e, fs3) => (inl (Collaborator e), fs3)
          | (inr _, fs3) =>
              match env_from_filename env datapath fs3 with
              | (inl e, fs4) => (inl (Collaborator e), fs4)
              | (inr loaded, fs4) =>
                  match fs4 !! datapath with
                  | None => (inl (FileNotFoundError datapath), fs4)
                  | Some _ =>
                      match env_logo_split env 88 true loaded (delete datapath fs4) with
                      | (inl e, (_, fs5)) => (inl (Collaborator e), fs5)
                      | (inr parts, (loaded1, fs5)) => (inr (loaded1, parts), fs5)
                      end
                  end
              end
          end
      end
  end.

(** ** Sample inputs *)

(** A gradient table of two entries in RAS+B layout (4 x 2). *)
Definition sample_gtab : pyval :=
  PyArray (NdArray [4; 2]%nat [0; 1; 0; 0; 0; 0; 0; 1000]%Q).

(** One query gradient: a unit vector and a b-value. *)
Definition sample_gradient : pyval :=
  PyArray (NdArray [4]%nat [1; 0; 0; 1000]%Q).

(** A reference map of 2 x 1 x 1 voxels. *)
Definition sample_S0 : pyval := PyArray (NdArray [2; 1; 1]%nat [7; 9]%Q).

(** A training volume of 2 x 1 x 1 voxels and two directions. *)
Definition sample_data : ndarray := NdArray [2; 1; 1; 2]%nat [2; 4; 10; 20]%Q.

(** The dataset of the end-to-end scenario: four directions, one b=0 and
    three diffusion-weighted, volumes of 2 x 1 x 1 voxels. *)
Definition sample_dwi : DWI.t :=
  DWI.Dataset
    [ NdArray [2; 1; 1]%nat [100; 120]%Q;
      NdArray [2; 1; 1]%nat [40; 50]%Q;
      NdArray [2; 1; 1]%nat [30; 60]%Q;
      NdArray [2; 1; 1]%nat [20; 70]%Q ]
    [1; 0; 0; 0; 0; 1; 0; 0; 0; 0; 1; 0; 0; 0; 0; 1]%Q
    [ Gradient (0, 0, 0)%Q 0; Gradient (1, 0, 0)%Q 1000;
      Gradient (0, 1, 0)%Q 1000; Gradient (0, 0, 1)%Q 1000 ]
    None.

Definition sample_epsilon : Q := 50.

(** A dataset stub that logs the members the cells use, in order. *)
Definition sample_parts : (pyval * pyval) * (pyval * pyval) :=
  ((PyArray sample_data, sample_gtab),
   (PyArray (NdArray [2; 1; 1]%nat [40; 50]%Q), sample_gradient)).

Definition sample_api : dataset_api (list string) :=
  DatasetAPI (list string)
    (fun log => (ok sample_gtab, log ++ ["gradients"]))
    (fun log => (ok sample_S0, log ++ ["bzero"]))
    (fun _ _ log => (ok sample_parts, log ++ ["logo_split"])).

(** The same stub with no b=0 reference ([bzero] is [None]). *)
Definition sample_api_no_b0 : dataset_api (list string) :=
  DatasetAPI (list string)
    (fun log => (ok sample_gtab, log ++ ["gradients"]))
    (fun log => (ok PyNone, log ++ ["bzero"]))
    (fun _ _ log => (ok sample_parts, log ++ ["logo_split"])).

(** A file system of two files, and collaborators for the fetching cell:
    a dataset is known by the path of its file. *)
Definition sample_files : files :=
  <["/tmp/em_cache.h5" := [Byte.x01; Byte.x02]]>
  (<["/home/jovyan/notes.txt" := [Byte.x68; Byte.x69]]> ∅).

Definition sample_download : list Byte.byte := [Byte.x89; Byte.x48; Byte.x44; Byte.x46].

(** [mkstemp] makes the empty file [/tmp/tmpk3x9.h5]; the download and
    the load leave the files alone; [logo_split] writes the cache of the
    dataset at its path (a dataset is known by that path). *)
Definition sample_env (get : string + list Byte.byte)
    (load : string + string) : fetch_env string string unit :=
  FetchEnv string string unit
    (fun d => d)
    (fun fs => (inr "/tmp/tmpk3x9.h5", <["/tmp/tmpk3x9.h5" := []]> fs))
    (fun fs => (get, fs))
    (fun _ fs => (load, fs))
    (fun _ _ d fs => (inr tt, (d, <[d := [Byte.x63]]> fs))).

(** * Properties *)

(** ** Slots and sequencing *)

Lemma getattr_unset {S} (name : string) (slot : S -> option pyval) (self : S) :
  slot self = None ->
  getattr name slot self = (raise (AttributeError name), self).
Proof. intros H. unfold getattr. now rewrite H. Qed.

Lemma getattr_set {S} (name : string) (slot : S -> option pyval) (self : S) v :
  slot self = Some v ->
  getattr name slot self = (ok v, self).
Proof. intros H. unfold getattr. now rewrite H. Qed.

Lemma mseq_ok {S A B} (c : method S A) (k : A -> method S B) self a self' :
  c self = (ok a, self') -> mseq c k self = k a self'.
Proof. intros H. unfold mseq, ok in *. now rewrite H. Qed.

Lemma mseq_raise {S A B} (c : method S A) (k : A -> method S B) self e self' :
  c self = (raise e, self') -> mseq c k self = (raise e, self').
Proof. intros H. unfold mseq, raise in *. now rewrite H. Qed.

(** ** The constant model *)

Section Constant.

Import TrivialB0Model.

Lemma trivial_fit_noop args kw self :
  fit args kw self = (ok PyNone, self).
Proof. reflexivity. Qed.

Lemma trivial_fit_many_noop calls self :
  fit_many calls self = (ok PyNone, self).
Proof.
  induction calls as [|[args kw] rest IH]; simpl; [reflexivity|].
  rewrite (mseq_ok _ _ _ _ _ (trivial_fit_noop args kw self)). exact IH.
Qed.

Lemma trivial_new_omitted gtab kw :
  new gtab None kw = raise (ValueError "S0 must be provided").
Proof. reflexivity. Qed.

(** An explicit [S0=None] is the default again: [__init__] cannot tell it
    from a missing keyword. *)
Lemma trivial_new_explicit_None gtab kw :
  new gtab (Some PyNone) kw = raise (ValueError "S0 must be provided").
Proof. reflexivity. Qed.

Lemma trivial_new_supplied gtab s0 kw :
  s0 <> PyNone -> new gtab (Some s0) kw = ok (Obj (Some s0)).
Proof. intros H. destruct s0; [congruence|reflexivity..]. Qed.

(** A constructed instance always has its slot assigned, with the [S0] of
    the call. *)
Lemma trivial_new_inv gtab S0 kw self :
  new gtab S0 kw = ok self ->
  exists s0, S0 = Some s0 /\ s0 <> PyNone /\ self = Obj (Some s0).
Proof.
  destruct S0 as [s0|]; [|discriminate].
  intros H. exists s0. destruct s0; try discriminate;
    (split; [reflexivity|split; [discriminate|]]);
    unfold new, ok in H; simpl in H; congruence.
Qed.

Lemma trivial_session_supplied gtab s0 kw calls g pkw :
  s0 <> PyNone -> session gtab (Some s0) kw calls g pkw = ok s0.
Proof.
  intros H. unfold session. rewrite (trivial_new_supplied _ _ _ H).
  unfold ok at 1. rewrite (mseq_ok _ _ _ _ _ (trivial_fit_many_noop calls _)).
  reflexivity.
Qed.

Lemma trivial_session_omitted gtab kw calls g pkw :
  session gtab None kw calls g pkw = raise (ValueError "S0 must be provided").
Proof. reflexivity. Qed.

End Constant.

Example sample_data_mean :
  mean_last_axis sample_data = NdArray [2; 1; 1]%nat [3; 15]%Q.
Proof. reflexivity. Qed.

(** ** Properties of the constant model *)

(** C2. Constant model ([TrivialB0Model]): [fit] is a no-op, and for every
    gradient [g], after any number of [fit] calls with any arguments,
    [predict(g)] returns the reference map [S0] that was supplied at
    construction, leaving the instance as it was. *)
Theorem trivial_predict_returns_S0
    gtab s0 kw self (calls : list fit_args) g pkw :
  TrivialB0Model.new gtab (Some s0) kw = ok self ->
  (forall args fkw, TrivialB0Model.fit args fkw self = (ok PyNone, self)) /\
  TrivialB0Model.fit_many calls self = (ok PyNone, self) /\
  (TrivialB0Model.fit_many calls ;; TrivialB0Model.predict g pkw)%method self
    = (ok s0, self).
Proof.
  intros Hnew. apply trivial_new_inv in Hnew as (s & Hs & _ & ->).
  injection Hs as <-.
  split; [intros; apply trivial_fit_noop|].
  split; [apply trivial_fit_many_noop|].
  rewrite (mseq_ok _ _ _ _ _ (trivial_fit_many_noop calls _)).
  reflexivity.
Qed.

Lemma trivial_predict_returns_S0_witness :
  TrivialB0Model.new sample_gtab (Some sample_S0) ∅
    = ok (TrivialB0Model.Obj (Some sample_S0)) /\
  (TrivialB0Model.fit_many [([PyArray sample_data], ∅); ([], ∅)] ;;
   TrivialB0Model.predict sample_gradient ∅)%method
     (TrivialB0Model.Obj (Some sample_S0))
    = (ok sample_S0, TrivialB0Model.Obj (Some sample_S0)).
Proof.
  split; [reflexivity|].
  apply (trivial_predict_returns_S0 sample_gtab sample_S0 ∅
           (TrivialB0Model.Obj (Some sample_S0))
           [([PyArray sample_data], ∅); ([], ∅)] sample_gradient ∅).
  reflexivity.
Defined.

(** C3, as stated, fails where [S0] is supplied and is [None], as in
    [TrivialB0Model(gtab, S0=None)] (the notebook passes
    [S0=dmri_dataset.bzero], which can be [None]): the keyword is there and
    the construction raises all the same; no instance is returned. *)
Lemma trivial_init_supplied_None_raises :
  TrivialB0Model.new sample_gtab (Some PyNone) ∅
    = raise (ValueError "S0 must be provided") /\
  ~ (exists self, TrivialB0Model.new sample_gtab (Some PyNone) ∅ = ok self).
Proof.
  split; [reflexivity|]. intros [self H]. discriminate H.
Qed.

(** C3, amended. Constructing [TrivialB0Model] without the keyword [S0], or
    with [S0=None], raises [ValueError("S0 must be provided")] in
    [__init__], so no instance exists on which [fit] could run, whatever
    calls were to follow; with an [S0] other than [None] supplied,
    construction succeeds and stores it. *)
Theorem trivial_init_requires_S0 gtab kw :
  TrivialB0Model.new gtab None kw = raise (ValueError "S0 must be provided") /\
  TrivialB0Model.new gtab (Some PyNone) kw
    = raise (ValueError "S0 must be provided") /\
  (forall calls g pkw,
     TrivialB0Model.session gtab None kw calls g pkw
       = raise (ValueError "S0 must be provided") /\
     TrivialB0Model.session gtab (Some PyNone) kw calls g pkw
       = raise (ValueError "S0 must be provided")) /\
  (forall s0, s0 <> PyNone ->
     TrivialB0Model.new gtab (Some s0) kw = ok (TrivialB0Model.Obj (Some s0))).
Proof.
  split; [apply trivial_new_omitted|].
  split; [apply trivial_new_explicit_None|].
  split; [intros; split; [apply trivial_session_omitted|reflexivity]|].
  intros s0 H. now apply trivial_new_supplied.
Qed.

Lemma trivial_init_requires_S0_witness :
  sample_S0 <> PyNone /\
  TrivialB0Model.new sample_gtab (Some sample_S0) ∅
    = ok (TrivialB0Model.Obj (Some sample_S0)).
Proof.
  split; [discriminate|].
  apply (proj2 (proj2 (proj2 (trivial_init_requires_S0 sample_gtab ∅))) sample_S0).
  discriminate.
Defined.

(** C9. The outcome of [TrivialB0Model.predict] depends on the [S0] of the
    construction only: two instances built with the same [S0], with any
    gradient tables and any extra keyword arguments, fitted any number of
    times with any arguments, give the same result at every query gradient
    (here even at two different ones). *)
Theorem trivial_predict_depends_on_S0_only
    gtab1 gtab2 kw1 kw2 S0 (calls1 calls2 : list fit_args) g1 g2 pkw1 pkw2 :
  TrivialB0Model.session gtab1 S0 kw1 calls1 g1 pkw1
    = TrivialB0Model.session gtab2 S0 kw2 calls2 g2 pkw2.
Proof.
  destruct S0 as [s0|]; [|reflexivity].
  destruct s0; try (rewrite !trivial_session_supplied by discriminate; reflexivity).
  reflexivity.
Qed.

(** ** Properties of the averaging model *)

Section Averaging.

Import AverageDWModel.

Lemma average_fit_noop data kw self : fit data kw self = (ok PyNone, self).
Proof. reflexivity. Qed.

Lemma average_fit_many_noop calls self :
  fit_many calls self = (ok PyNone, self).
Proof.
  induction calls as [|[data kw] rest IH]; simpl; [reflexivity|].
  rewrite (mseq_ok _ _ _ _ _ (average_fit_noop data kw self)). exact IH.
Qed.

Lemma average_new gtab kw : new gtab kw = ok (Obj None).
Proof. reflexivity. Qed.

Lemma average_session gtab kw calls g pkw :
  session gtab kw calls g pkw = raise (AttributeError "_data").
Proof.
  unfold session. rewrite average_new. unfold ok at 1.
  rewrite (mseq_ok _ _ _ _ _ (average_fit_many_noop calls _)).
  reflexivity.
Qed.

End Averaging.

(** C1. At a training volume of two directions, [fit] followed by [predict]
    raises [AttributeError] on the slot [_data]; it does not return the
    voxel-wise mean across the direction axis, which the docstrings of the
    class announce. *)
Theorem average_fit_predict_misses_mean :
  mean_last_axis sample_data = NdArray [2; 1; 1]%nat [3; 15]%Q /\
  AverageDWModel.session sample_gtab ∅ [(PyArray sample_data, ∅)] sample_gradient ∅
    = raise (AttributeError "_data") /\
  AverageDWModel.session sample_gtab ∅ [(PyArray sample_data, ∅)] sample_gradient ∅
    <> ok (PyArray (mean_last_axis sample_data)).
Proof.
  split; [reflexivity|].
  rewrite average_session. split; [reflexivity|discriminate].
Qed.

(** C7. The model of the notebook that needs fitting is [AverageDWModel]
    (its constructor stores nothing): for every construction, [predict]
    called before any [fit] raises [AttributeError] on the unassigned slot
    [_data] and returns no data; the instance is left as it was. *)
Theorem average_predict_before_fit gtab kw g pkw :
  exists self,
    AverageDWModel.new gtab kw = ok self /\
    AverageDWModel.predict g pkw self = (raise (AttributeError "_data"), self).
Proof.
  exists (AverageDWModel.Obj None). split; [apply average_new|].
  apply getattr_unset. reflexivity.
Qed.

(** C10. [AverageDWModel.fit] as written never assigns the slot [_data]:
    every [fit], and every sequence of [fit] calls, leaves the instance as it
    was, so for every construction, every sequence of [fit] calls and every
    query, [predict] raises [AttributeError] on [_data] and never returns a
    value. *)
Theorem average_predict_never_returns :
  (forall data fkw self, AverageDWModel.fit data fkw self = (ok PyNone, self)) /\
  (forall calls self, snd (AverageDWModel.fit_many calls self) = self) /\
  (forall gtab kw calls g pkw,
     AverageDWModel.session gtab kw calls g pkw = raise (AttributeError "_data") /\
     forall v, AverageDWModel.session gtab kw calls g pkw <> ok v).
Proof.
  split; [intros; apply average_fit_noop|].
  split; [intros; now rewrite average_fit_many_noop|].
  intros. rewrite average_session. split; [reflexivity|discriminate].
Qed.

(** ** Properties of the leave-one-gradient-out split *)

Example sample_dwi_wf : DWI.wf sample_dwi.
Proof. reflexivity. Qed.

(** The scenario: [logo_split(1, with_b0=false)] holds out the first
    diffusion-weighted direction and trains on the b=0 volume and the other
    two. *)
Example sample_logo_split_1 :
  DWI.logo_split sample_epsilon 1 false sample_dwi
  = (ok (([ NdArray [2; 1; 1]%nat [100; 120]%Q;
            NdArray [2; 1; 1]%nat [30; 60]%Q;
            NdArray [2; 1; 1]%nat [20; 70]%Q ],
          [ Gradient (0, 0, 0)%Q 0; Gradient (0, 1, 0)%Q 1000;
            Gradient (0, 0, 1)%Q 1000 ]),
         (NdArray [2; 1; 1]%nat [40; 50]%Q, Gradient (1, 0, 0)%Q 1000)),
     sample_dwi).
Proof. reflexivity. Qed.

Example sample_bzero :
  fst (DWI.bzero sample_epsilon sample_dwi) = ok (NdArray [2; 1; 1]%nat [100; 120]%Q).
Proof. reflexivity. Qed.

Section Split.

Import DWI.
Variable epsilon : Q.

Lemma bzero_returns self :
  exists b0 self',
    bzero epsilon self = (ok b0, self') /\
    dataobj self' = dataobj self /\
    affine self' = affine self /\
    gradients self' = gradients self /\
    (self' = self \/
     _bzero self = None /\
     _bzero self' = Some (voxel_mean (b0_volumes epsilon (gradients self) (dataobj self)))).
Proof.
  unfold bzero. destruct (_bzero self) as [b0|] eqn:E.
  - exists b0, self. repeat split; auto.
  - eexists _, _. split; [reflexivity|]. simpl. repeat split; auto.
Qed.

Lemma logo_split_out_of_range self index with_b0 :
  ¬ (0 ≤ index < Z.of_nat (length (dataobj self)))%Z ->
  logo_split epsilon index with_b0 self
    = (raise (IndexError "index out of range"), self).
Proof.
  intros H. unfold logo_split. now rewrite bool_decide_eq_false_2.
Qed.

(** The receiver after a split: the same arrays, and at most the cache of
    the b=0 reference filled in. *)
Lemma logo_split_state self index with_b0 :
  let self' := snd (logo_split epsilon index with_b0 self) in
  dataobj self' = dataobj self /\
  affine self' = affine self /\
  gradients self' = gradients self /\
  (self' = self \/
   _bzero self = None /\
   _bzero self' = Some (voxel_mean (b0_volumes epsilon (gradients self) (dataobj self)))).
Proof.
  unfold logo_split.
  destruct (bool_decide _); [|simpl; auto].
  destruct (dataobj self !! Z.to_nat index); [|simpl; auto].
  destruct (gradients self !! Z.to_nat index); [|simpl; auto].
  destruct with_b0; [|simpl; auto].
  destruct (bzero_returns self) as (b0 & self' & Hb & H).
  rewrite (mseq_ok _ _ _ _ _ Hb). exact H.
Qed.

Lemma logo_split_in_range self index with_b0 vol g :
  (0 ≤ index < Z.of_nat (length (dataobj self)))%Z ->
  dataobj self !! Z.to_nat index = Some vol ->
  gradients self !! Z.to_nat index = Some g ->
  exists pre_data pre_gradients self',
    logo_split epsilon index with_b0 self
      = (ok ((pre_data ++ delete (Z.to_nat index) (dataobj self),
              pre_gradients ++ delete (Z.to_nat index) (gradients self)),
             (vol, g)), self') /\
    length pre_data = (if with_b0 then 1 else 0)%nat /\
    length pre_gradients = (if with_b0 then 1 else 0)%nat.
Proof.
  intros Hi Hv Hg. unfold logo_split.
  rewrite bool_decide_eq_true_2 by exact Hi. rewrite Hv, Hg.
  destruct with_b0.
  - destruct (bzero_returns self) as (b0 & self' & Hb & _).
    rewrite (mseq_ok _ _ _ _ _ Hb).
    exists [b0], [b0_gradient], self'. auto.
  - exists [], [], self. auto.
Qed.

End Split.

(** C4. For every dataset with [N] directions and every held-out index in
    [0, N), [logo_split] returns a training part of [N - 1] directions, or
    [N] with [with_b0] (the b=0 reference in front), which apart from that
    reference is the dataset without the selected direction, and a held-out
    part of one direction: the selected volume and its gradient entry. *)
Theorem logo_split_counts epsilon (d : DWI.t) index with_b0 :
  DWI.wf d ->
  (0 ≤ index < Z.of_nat (length (DWI.dataobj d)))%Z ->
  exists train_data train_gradients vol g d',
    DWI.logo_split epsilon index with_b0 d
      = (ok ((train_data, train_gradients), (vol, g)), d') /\
    length train_data
      = (if with_b0 then length (DWI.dataobj d) else length (DWI.dataobj d) - 1)%nat /\
    length train_gradients = length train_data /\
    drop (if with_b0 then 1 else 0)%nat train_data
      = delete (Z.to_nat index) (DWI.dataobj d) /\
    drop (if with_b0 then 1 else 0)%nat train_gradients
      = delete (Z.to_nat index) (DWI.gradients d) /\
    DWI.dataobj d !! Z.to_nat index = Some vol /\
    DWI.gradients d !! Z.to_nat index = Some g.
Proof.
  intros Hwf Hi. unfold DWI.wf in Hwf.
  assert (Hlt : (Z.to_nat index < length (DWI.dataobj d))%nat) by lia.
  destruct (lookup_lt_is_Some_2 (DWI.dataobj d) _ Hlt) as [vol Hv].
  assert (Hlt' : (Z.to_nat index < length (DWI.gradients d))%nat) by lia.
  destruct (lookup_lt_is_Some_2 (DWI.gradients d) _ Hlt') as [g Hg].
  destruct (logo_split_in_range epsilon d index with_b0 vol g Hi Hv Hg)
    as (pd & pg & d' & Hsplit & Hpd & Hpg).
  exists (pd ++ delete (Z.to_nat index) (DWI.dataobj d)),
         (pg ++ delete (Z.to_nat index) (DWI.gradients d)), vol, g, d'.
  split; [exact Hsplit|].
  assert (Hld : length (delete (Z.to_nat index) (DWI.dataobj d))
                = (length (DWI.dataobj d) - 1)%nat) by (apply length_delete; eauto).
  assert (Hlg : length (delete (Z.to_nat index) (DWI.gradients d))
                = (length (DWI.dataobj d) - 1)%nat)
    by (rewrite <- Hwf; apply length_delete; eauto).
  rewrite !length_app, Hld, Hlg, Hpd, Hpg.
  destruct with_b0.
  - destruct pd as [|b0 [|? ?]]; try discriminate Hpd.
    destruct pg as [|g0 [|? ?]]; try discriminate Hpg.
    simpl. rewrite !drop_0. repeat split; auto; lia.
  - destruct pd; try discriminate Hpd. destruct pg; try discriminate Hpg.
    simpl. repeat split; auto.
Qed.

Lemma logo_split_counts_witness :
  DWI.wf sample_dwi /\
  (0 ≤ 1 < Z.of_nat (length (DWI.dataobj sample_dwi)))%Z /\
  exists train_data train_gradients vol g d',
    DWI.logo_split sample_epsilon 1 true sample_dwi
      = (ok ((train_data, train_gradients), (vol, g)), d') /\
    length train_data = 4%nat /\
    length train_gradients = length train_data /\
    drop 1 train_data = delete (Z.to_nat 1) (DWI.dataobj sample_dwi) /\
    drop 1 train_gradients = delete (Z.to_nat 1) (DWI.gradients sample_dwi) /\
    DWI.dataobj sample_dwi !! Z.to_nat 1 = Some vol /\
    DWI.gradients sample_dwi !! Z.to_nat 1 = Some g.
Proof.
  split; [reflexivity|]. split; [simpl; lia|].
  apply (logo_split_counts sample_epsilon sample_dwi 1 true);
    [reflexivity|simpl; lia].
Defined.

(** C5. [logo_split] with a held-out index outside [0, N), in particular one
    at or beyond the number of directions, raises [IndexError]; the check
    comes first, so nothing is partitioned and the dataset is left as it
    was (the cache of the b=0 reference included). *)
Theorem logo_split_index_error epsilon (d : DWI.t) index with_b0 :
  (index < 0 \/ Z.of_nat (length (DWI.dataobj d)) ≤ index)%Z ->
  DWI.logo_split epsilon index with_b0 d
    = (raise (IndexError "index out of range"), d).
Proof.
  intros H. apply logo_split_out_of_range. lia.
Qed.

Lemma logo_split_index_error_witness :
  (4 < 0 \/ Z.of_nat (length (DWI.dataobj sample_dwi)) ≤ 4)%Z /\
  DWI.logo_split sample_epsilon 4 true sample_dwi
    = (raise (IndexError "index out of range"), sample_dwi).
Proof.
  split; [right; simpl; lia|].
  apply (logo_split_index_error sample_epsilon sample_dwi 4 true).
  right; simpl; lia.
Defined.

(** C8. [logo_split] never changes the data array of the dataset: for every
    dataset, index and flag the data array after the split is the one
    before it, and so are the affine and the gradient table; the dataset
    after the split is the dataset before it, or differs from it only in
    the cache of the b=0 reference, which was empty and now holds the
    average of the b=0 volumes. *)
Theorem logo_split_keeps_data epsilon (d : DWI.t) index with_b0 :
  let d' := snd (DWI.logo_split epsilon index with_b0 d) in
  DWI.dataobj d' = DWI.dataobj d /\
  DWI.affine d' = DWI.affine d /\
  DWI.gradients d' = DWI.gradients d /\
  (d' = d \/
   DWI._bzero d = None /\
   DWI._bzero d'
     = Some (DWI.voxel_mean (DWI.b0_volumes epsilon (DWI.gradients d) (DWI.dataobj d)))).
Proof. apply logo_split_state. Qed.

(** ** Properties of the model factory *)

Example lower_DTI : lower "DTI" = "dti".
Proof. reflexivity. Qed.

Example init_DTI :
  ModelFactory.init ModelFactory.registry sample_gtab "DTI" {["S0" := sample_S0]}
  = ok (ModelFactory.Tensor sample_gtab {["S0" := sample_S0]}).
Proof. reflexivity. Qed.

Example init_trivial :
  ModelFactory.init ModelFactory.registry sample_gtab "Trivial" {["S0" := sample_S0]}
  = ok (ModelFactory.Constant (TrivialB0Model.Obj (Some sample_S0))).
Proof. reflexivity. Qed.

Lemma init_unregistered (reg : gmap string ModelFactory.constructor) gtab name params :
  reg !! lower name = None ->
  ModelFactory.init reg gtab name params = raise (UnknownModelError name).
Proof.
  intros H. unfold ModelFactory.init, ModelFactory.constructor in *.
  now rewrite H.
Qed.

(** C6. [ModelFactory.init] with a name that is not registered (in any
    registry) raises [UnknownModelError] for that name and returns no model,
    so no default model stands in for it; with the registry of the spec,
    [init(gtab, "NOT_A_MODEL")] raises, whatever the gradient table and the
    parameters. *)
Theorem init_unknown_model :
  (forall (reg : gmap string ModelFactory.constructor) gtab name params,
     reg !! lower name = None ->
     ModelFactory.init reg gtab name params = raise (UnknownModelError name) /\
     forall m, ModelFactory.init reg gtab name params <> ok m) /\
  (forall gtab params,
     ModelFactory.init ModelFactory.registry gtab "NOT_A_MODEL" params
       = raise (UnknownModelError "NOT_A_MODEL")).
Proof.
  split.
  - intros reg gtab name params H. rewrite (init_unregistered _ _ _ _ H).
    split; [reflexivity|discriminate].
  - intros gtab params. apply init_unregistered. reflexivity.
Qed.

Lemma init_unknown_model_witness :
  ModelFactory.registry !! lower "NOT_A_MODEL" = None /\
  ModelFactory.init ModelFactory.registry sample_gtab "NOT_A_MODEL" ∅
    = raise (UnknownModelError "NOT_A_MODEL").
Proof.
  split; [reflexivity|].
  apply (proj1 init_unknown_model ModelFactory.registry sample_gtab "NOT_A_MODEL" ∅).
  reflexivity.
Defined.

(** * Further properties of the notebook's code *)

(** ** Any order of calls on one instance *)

Lemma run_calls_fixed {S F} (do_fit : F -> method S pyval)
    (do_predict : pyval -> kwargs_t -> method S pyval)
    (fit_result predict_result : result pyval) (self : S) :
  (forall a, do_fit a self = (fit_result, self)) ->
  (forall g kw, do_predict g kw self = (predict_result, self)) ->
  forall calls,
    run_calls do_fit do_predict calls self
    = ((fun c => match c with
                 | Fit _ => fit_result
                 | Predict _ _ => predict_result
                 end) <$> calls, self).
Proof.
  intros Hfit Hpredict. induction calls as [|c rest IH]; [reflexivity|].
  simpl. destruct c as [a|g kw].
  - rewrite Hfit, IH. reflexivity.
  - rewrite Hpredict, IH. reflexivity.
Qed.

(** X1. On a constructed [TrivialB0Model], in any sequence of [fit] and
    [predict] calls, in any order and with any arguments, every [fit]
    returns [None], every [predict] returns the [S0] of the construction,
    and the instance is left as constructed. *)
Theorem trivial_calls_constant gtab s0 kw self (calls : list (model_call fit_args)) :
  TrivialB0Model.new gtab (Some s0) kw = ok self ->
  trivial_calls calls self
  = ((fun c => match c with
               | Fit _ => ok PyNone
               | Predict _ _ => ok s0
               end) <$> calls, self).
Proof.
  intros Hnew. apply trivial_new_inv in Hnew as (s & Hs & _ & ->).
  injection Hs as <-. unfold trivial_calls.
  apply run_calls_fixed; reflexivity.
Qed.

Lemma trivial_calls_constant_witness :
  TrivialB0Model.new sample_gtab (Some sample_S0) ∅
    = ok (TrivialB0Model.Obj (Some sample_S0)) /\
  trivial_calls
    [Predict sample_gradient ∅; Fit ([PyArray sample_data], ∅);
     Predict PyNone ∅; Fit ([], ∅); Predict sample_gtab ∅]
    (TrivialB0Model.Obj (Some sample_S0))
  = ([ok sample_S0; ok PyNone; ok sample_S0; ok PyNone; ok sample_S0],
     TrivialB0Model.Obj (Some sample_S0)).
Proof.
  split; [reflexivity|].
  apply (trivial_calls_constant sample_gtab sample_S0 ∅
           (TrivialB0Model.Obj (Some sample_S0))
           [Predict sample_gradient ∅; Fit ([PyArray sample_data], ∅);
            Predict PyNone ∅; Fit ([], ∅); Predict sample_gtab ∅]).
  reflexivity.
Defined.

(** X2. Constructing a [TrivialB0Model] succeeds exactly when [S0] is given
    and is not [None]: an explicit [S0=None] raises the same [ValueError] as
    a missing [S0].  So [predict] on a constructed instance never raises and
    never returns [None]. *)
Theorem trivial_new_iff gtab S0 kw :
  (forall self,
     TrivialB0Model.new gtab S0 kw = ok self <->
     exists s0, S0 = Some s0 /\ s0 <> PyNone /\ self = TrivialB0Model.Obj (Some s0)) /\
  (S0 = None \/ S0 = Some PyNone ->
     TrivialB0Model.new gtab S0 kw = raise (ValueError "S0 must be provided")) /\
  (forall self g pkw,
     TrivialB0Model.new gtab S0 kw = ok self ->
     exists v, TrivialB0Model.predict g pkw self = (ok v, self) /\
               v <> PyNone /\ S0 = Some v).
Proof.
  split; [|split].
  - intros self. split; [apply trivial_new_inv|].
    intros (s0 & -> & Hs0 & ->). now apply trivial_new_supplied.
  - intros [->| ->]; reflexivity.
  - intros self g pkw Hnew.
    apply trivial_new_inv in Hnew as (s0 & -> & Hs0 & ->).
    exists s0. repeat split; auto.
Qed.

Lemma trivial_new_iff_witness :
  (Some PyNone = None \/ Some PyNone = Some PyNone) /\
  TrivialB0Model.new sample_gtab (Some PyNone) {["extra" := PyInt 1]}
    = raise (ValueError "S0 must be provided").
Proof.
  split; [right; reflexivity|].
  apply (proj1 (proj2 (trivial_new_iff sample_gtab (Some PyNone) {["extra" := PyInt 1]}))).
  right; reflexivity.
Defined.

(** X3. Constructing an [AverageDWModel] never fails, whatever the
    arguments, and on the instance, in any sequence of [fit] and [predict]
    calls, every [fit] returns [None] and every [predict] raises
    [AttributeError] on [_data]: no [fit] before it, and no number of them,
    makes a [predict] return. *)
Theorem average_calls_never_predict gtab kw
    (calls : list (model_call (pyval * kwargs_t))) :
  exists self,
    AverageDWModel.new gtab kw = ok self /\
    average_calls calls self
    = ((fun c => match c with
                 | Fit _ => ok PyNone
                 | Predict _ _ => raise (AttributeError "_data")
                 end) <$> calls, self).
Proof.
  exists (AverageDWModel.Obj None). split; [apply average_new|].
  unfold average_calls. apply run_calls_fixed; reflexivity.
Qed.

(** ** The cells that use the constant model *)

(** X4. Whatever the dataset object does and whatever index is held out:
    when [dmri_dataset.bzero] is not [None] and [logo_split] returns, the
    [predicted] map of the cells is [dmri_dataset.bzero] as it was read when
    the model was constructed; the split decides nothing of it.  The dataset
    is left as its three members left it, read in the order [gradients],
    [bzero], [logo_split]. *)
Theorem trivial_cells_predict_bzero {D} (api : dataset_api D) index
    (d d1 d2 d3 : D) gtab b0 parts :
  api_gradients api d = (ok gtab, d1) ->
  api_bzero api d1 = (ok b0, d2) ->
  b0 <> PyNone ->
  api_logo_split api index false d2 = (ok parts, d3) ->
  trivial_cells api index d = (ok b0, d3).
Proof.
  intros Hg Hb Hb0 Hs. unfold trivial_cells.
  rewrite (mseq_ok _ _ _ _ _ Hg), (mseq_ok _ _ _ _ _ Hb).
  rewrite (trivial_new_supplied _ _ _ Hb0). unfold ok at 1.
  rewrite (mseq_ok _ _ _ _ _ Hs). reflexivity.
Qed.

Lemma trivial_cells_predict_bzero_witness :
  api_gradients sample_api [] = (ok sample_gtab, ["gradients"]) /\
  api_bzero sample_api ["gradients"] = (ok sample_S0, ["gradients"; "bzero"]) /\
  sample_S0 <> PyNone /\
  api_logo_split sample_api 10 false ["gradients"; "bzero"]
    = (ok sample_parts, ["gradients"; "bzero"; "logo_split"]) /\
  trivial_cells sample_api 10 []
    = (ok sample_S0, ["gradients"; "bzero"; "logo_split"]).
Proof.
  split; [reflexivity|]. split; [reflexivity|]. split; [discriminate|].
  split; [reflexivity|].
  apply (trivial_cells_predict_bzero sample_api 10
           [] ["gradients"] ["gradients"; "bzero"]
           ["gradients"; "bzero"; "logo_split"] sample_gtab sample_S0 sample_parts);
    [reflexivity|reflexivity|discriminate|reflexivity].
Defined.

(** X5. How the cells fail.  When [dmri_dataset.bzero] is [None], the
    class call raises [ValueError("S0 must be provided")] and the cells stop
    there: [logo_split] is not reached, the dataset is as [gradients] and
    [bzero] left it.  When the model is constructed and [logo_split] raises,
    that exception is the outcome and nothing is predicted. *)
Theorem trivial_cells_failures {D} (api : dataset_api D) index
    (d d1 d2 : D) gtab :
  api_gradients api d = (ok gtab, d1) ->
  (api_bzero api d1 = (ok PyNone, d2) ->
   trivial_cells api index d = (raise (ValueError "S0 must be provided"), d2)) /\
  (forall b0 e d3,
     api_bzero api d1 = (ok b0, d2) ->
     b0 <> PyNone ->
     api_logo_split api index false d2 = (raise e, d3) ->
     trivial_cells api index d = (raise e, d3)).
Proof.
  intros Hg. split.
  - intros Hb. unfold trivial_cells.
    rewrite (mseq_ok _ _ _ _ _ Hg), (mseq_ok _ _ _ _ _ Hb). reflexivity.
  - intros b0 e d3 Hb Hb0 Hs. unfold trivial_cells.
    rewrite (mseq_ok _ _ _ _ _ Hg), (mseq_ok _ _ _ _ _ Hb).
    rewrite (trivial_new_supplied _ _ _ Hb0). unfold ok at 1.
    rewrite (mseq_raise _ _ _ _ _ Hs). reflexivity.
Qed.

Lemma trivial_cells_failures_witness :
  api_gradients sample_api_no_b0 [] = (ok sample_gtab, ["gradients"]) /\
  api_bzero sample_api_no_b0 ["gradients"] = (ok PyNone, ["gradients"; "bzero"]) /\
  trivial_cells sample_api_no_b0 10 []
    = (raise (ValueError "S0 must be provided"), ["gradients"; "bzero"]).
Proof.
  split; [reflexivity|]. split; [reflexivity|].
  apply (proj1 (trivial_cells_failures sample_api_no_b0 10
                  [] ["gradients"] ["gradients"; "bzero"] sample_gtab eq_refl)).
  reflexivity.
Defined.

(** ** The cell that fetches the full dataset *)

Lemma unlink_if_exists_delete path (fs : files) :
  unlink_if_exists path fs = delete path fs.
Proof.
  unfold unlink_if_exists. destruct (fs !! path) eqn:E; [reflexivity|].
  symmetry. now apply delete_id.
Qed.

Section Fetch.

Context {D E P : Type} (env : fetch_env D E P).
Variable dmri_dataset : D.
Variable fs : files.
Variable datapath : string.

(** The cell once [mkstemp] has made its empty file: the size test passes,
    so the download is attempted, and the content it returns is written to
    the temporary file. *)
Lemma fetch_cell_after_mkstemp fs1 :
  fs1 = unlink_if_exists (env_filepath env dmri_dataset) fs ->
  env_mkstemp env fs1 = (inr datapath, <[datapath := []]> fs1) ->
  fetch_cell env dmri_dataset fs
  = match env_get env (<[datapath := []]> fs1) with
    | (inl e, fs3) => (inl (Collaborator e), fs3)
    | (inr content, fs3) =>
        match env_from_filename env datapath (<[datapath := content]> fs3) with
        | (inl e, fs4) => (inl (Collaborator e), fs4)
        | (inr loaded, fs4) =>
            match fs4 !! datapath with
            | None => (inl (FileNotFoundError datapath), fs4)
            | Some _ =>
                match env_logo_split env 88 true loaded (delete datapath fs4) with
                | (inl e, (_, fs5)) => (inl (Collaborator e), fs5)
                | (inr parts, (loaded1, fs5)) => (inr (loaded1, parts), fs5)
                end
            end
        end
    end.
Proof.
  intros -> Hmk. unfold fetch_cell. rewrite Hmk, lookup_insert_eq. simpl.
  destruct (env_get env _) as [[e|content] fs3]; reflexivity.
Qed.

End Fetch.

(** X6. When [mkstemp] makes its file under a name that no file has, the
    download returns and the load returns, both leaving the files alone, the
    cell unlinks the temporary file before it splits:
    [logo_split(88, with_b0=True)] of the loaded dataset runs on the file
    system the cell found minus the file behind the old dataset (no
    temporary file, every other file as it was), and the outcome of the
    cell and the files it leaves are those of that call. *)
Theorem fetch_cell_cleans_up {D E P} (env : fetch_env D E P)
    (dmri_dataset : D) (fs : files) datapath content loaded :
  let path := env_filepath env dmri_dataset in
  let fs1 := unlink_if_exists path fs in
  fs1 !! datapath = None ->
  env_mkstemp env fs1 = (inr datapath, <[datapath := []]> fs1) ->
  env_get env (<[datapath := []]> fs1) = (inr content, <[datapath := []]> fs1) ->
  env_from_filename env datapath (<[datapath := content]> fs1)
    = (inr loaded, <[datapath := content]> fs1) ->
  fetch_cell env dmri_dataset fs
  = match env_logo_split env 88 true loaded (delete path fs) with
    | (inl e, (_, fs5)) => (inl (Collaborator e), fs5)
    | (inr parts, (loaded1, fs5)) => (inr (loaded1, parts), fs5)
    end /\
  delete path fs !! datapath = None /\
  delete path fs !! path = None /\
  (forall other, other <> path -> delete path fs !! other = fs !! other).
Proof.
  intros path fs1 Hfresh Hmk Hget Hload.
  assert (Hfs1 : fs1 = delete path fs) by apply unlink_if_exists_delete.
  split.
  - rewrite (fetch_cell_after_mkstemp env dmri_dataset fs datapath fs1 eq_refl Hmk).
    rewrite Hget, insert_insert_eq, Hload, lookup_insert_eq, delete_insert_eq.
    rewrite (delete_id _ _ Hfresh), Hfs1. reflexivity.
  - rewrite <- Hfs1. split; [exact Hfresh|]. rewrite Hfs1.
    split; [apply lookup_delete_eq|].
    intros other Hne. now apply lookup_delete_ne.
Qed.

Lemma fetch_cell_cleans_up_witness :
  unlink_if_exists "/tmp/em_cache.h5" sample_files !! "/tmp/tmpk3x9.h5" = None /\
  fetch_cell (sample_env (inr sample_download) (inr "/tmp/em_cache.h5"))
    "/tmp/em_cache.h5" sample_files
  = (inr ("/tmp/em_cache.h5", tt),
     <["/tmp/em_cache.h5" := [Byte.x63]]> (delete "/tmp/em_cache.h5" sample_files)).
Proof.
  split; [reflexivity|].
  exact (proj1 (fetch_cell_cleans_up
                  (sample_env (inr sample_download) (inr "/tmp/em_cache.h5"))
                  "/tmp/em_cache.h5" sample_files "/tmp/tmpk3x9.h5"
                  sample_download "/tmp/em_cache.h5"
                  eq_refl eq_refl eq_refl eq_refl)).
Defined.

(** X7. When the download or the load raises, the cell ends with that
    exception and the temporary file stays behind, next to the files that
    were there (the file of the old dataset is gone already): empty when the
    download raised, with the downloaded bytes when the load raised.
    ([mkstemp] makes its file under a name that no file has; the download
    and the load leave the files alone.) *)
Theorem fetch_cell_leaves_file {D E P} (env : fetch_env D E P)
    (dmri_dataset : D) (fs : files) datapath :
  let path := env_filepath env dmri_dataset in
  let fs1 := unlink_if_exists path fs in
  fs1 !! datapath = None ->
  env_mkstemp env fs1 = (inr datapath, <[datapath := []]> fs1) ->
  (forall e,
     env_get env (<[datapath := []]> fs1) = (inl e, <[datapath := []]> fs1) ->
     fetch_cell env dmri_dataset fs
     = (inl (Collaborator e), <[datapath := []]> (delete path fs))) /\
  (forall content e,
     env_get env (<[datapath := []]> fs1) = (inr content, <[datapath := []]> fs1) ->
     env_from_filename env datapath (<[datapath := content]> fs1)
       = (inl e, <[datapath := content]> fs1) ->
     fetch_cell env dmri_dataset fs
     = (inl (Collaborator e), <[datapath := content]> (delete path fs))).
Proof.
  intros path fs1 _ Hmk.
  assert (Hfs1 : fs1 = delete path fs) by apply unlink_if_exists_delete.
  split.
  - intros e Hget.
    rewrite (fetch_cell_after_mkstemp env dmri_dataset fs datapath fs1 eq_refl Hmk).
    rewrite Hget, Hfs1. reflexivity.
  - intros content e Hget Hload.
    rewrite (fetch_cell_after_mkstemp env dmri_dataset fs datapath fs1 eq_refl Hmk).
    rewrite Hget, insert_insert_eq, Hload, Hfs1. reflexivity.
Qed.

Lemma fetch_cell_leaves_file_witness :
  unlink_if_exists "/tmp/em_cache.h5" sample_files !! "/tmp/tmpk3x9.h5" = None /\
  fetch_cell (sample_env (inr sample_download) (inl "not an HDF5 file"))
    "/tmp/em_cache.h5" sample_files
  = (inl (Collaborator "not an HDF5 file"),
     <["/tmp/tmpk3x9.h5" := sample_download]> (delete "/tmp/em_cache.h5" sample_files)).
Proof.
  split; [reflexivity|].
  apply (proj2 (fetch_cell_leaves_file
                  (sample_env (inr sample_download) (inl "not an HDF5 file"))
                  "/tmp/em_cache.h5" sample_files "/tmp/tmpk3x9.h5"
                  eq_refl eq_refl) sample_download);
    reflexivity.
Defined.
